(** * zxtools.hobeta: the Hobeta header codec and the header stripper

    A shallow embedding of [src/zxtools/hobeta.py].  Python integers are
    [Z], [bytes] objects are [list byte], [str] objects are [string],
    exceptions are the [Raise] branch of [result], and the binary files
    handed over by [argparse] are in-memory files with a read cursor. *)

From Stdlib Require Import ZArith List Lia String Ascii Bool.
From Stdlib.Strings Require Import Byte.
From Stdlib Require Import Permutation DecimalString.
From Equations Require Import Equations.
From Equations.Prop Require Logic.
Import ListNotations.

Local Open Scope Z_scope.

(** ** Python values used by the module *)

Definition bytes := list byte.

(** [len(data)] *)
Definition len {A} (l : list A) : Z := Z.of_nat (List.length l).

(** The integer a [bytes] object yields at one index. *)
Definition byte_val (b : byte) : Z := Z.of_N (Byte.to_N b).

(** The exceptions the module can run into. *)
Inductive exn : Type :=
| struct_error          (* struct.error *)
| TypeError             (* namedtuple _make with a wrong arity *)
| UnicodeDecodeError.   (* bytes.decode("ascii") *)

Inductive result (A : Type) : Type :=
| Ok (a : A)
| Raise (e : exn).
Arguments Ok {A} a.
Arguments Raise {A} e.

Definition bind {A B} (m : result A) (k : A -> result B) : result B :=
  match m with
  | Ok a => k a
  | Raise e => Raise e
  end.

Notation "x <- m ;; k" := (bind m (fun x => k))
  (at level 61, m at next level, right associativity).
Notation "' p <- m ;; k" := (bind m (fun x => let p := x in k))
  (at level 61, p pattern, m at next level, right associativity).

(** ** The [struct] module, as far as [HEADER_FMT] needs it *)

Module struct.

(** One field of a little-endian ('<') format: [n s] is one field of
    [n] bytes, [B] and [H] are unsigned integers of 1 and 2 bytes. *)
Inductive item : Type :=
| Chars (n : nat)
| UByte
| UShort.

Inductive value : Type :=
| VBytes (b : bytes)
| VInt (z : Z).

Definition is_digit (c : ascii) : bool :=
  let n := nat_of_ascii c in ((48 <=? n) && (n <=? 57))%nat.

Definition digit_val (c : ascii) : nat := (nat_of_ascii c - 48)%nat.

(** The repeat count in front of a format character ([None]: absent). *)
Definition push_digit (cnt : option nat) (c : ascii) : option nat :=
  match cnt with
  | None => Some (digit_val c)
  | Some n => Some (10 * n + digit_val c)%nat
  end.

Definition count_of (cnt : option nat) : nat :=
  match cnt with
  | None => 1%nat
  | Some n => n
  end.

Fixpoint parse_items (cnt : option nat) (s : string) : result (list item) :=
  match s with
  | EmptyString =>
      match cnt with
      | None => Ok []
      | Some _ => Raise struct_error
      end
  | String c rest =>
      if is_digit c then parse_items (push_digit cnt c) rest
      else if Ascii.eqb c "s" then
        items <- parse_items None rest ;; Ok (Chars (count_of cnt) :: items)
      else if Ascii.eqb c "B" then
        items <- parse_items None rest ;; Ok (repeat UByte (count_of cnt) ++ items)
      else if Ascii.eqb c "H" then
        items <- parse_items None rest ;; Ok (repeat UShort (count_of cnt) ++ items)
      else Raise struct_error
  end.

(** Only the byte order mark '<' (little-endian, standard sizes, no
    padding) is modelled. *)
Definition parse_format (fmt : string) : result (list item) :=
  match fmt with
  | String "<" rest => parse_items None rest
  | _ => Raise struct_error
  end.

Definition item_size (it : item) : nat :=
  match it with
  | Chars n => n
  | UByte => 1
  | UShort => 2
  end.

Definition items_size (items : list item) : nat :=
  fold_right (fun it acc => (item_size it + acc)%nat) 0%nat items.

(** [struct.calcsize(fmt)] *)
Definition calcsize (fmt : string) : result Z :=
  items <- parse_format fmt ;; Ok (Z.of_nat (items_size items)).

(** An unsigned little-endian integer: least significant byte first. *)
Definition le_uint (bs : bytes) : Z :=
  fold_right (fun b acc => byte_val b + 256 * acc) 0 bs.

Definition unpack_item (it : item) (field : bytes) : value :=
  match it with
  | Chars _ => VBytes field
  | UByte | UShort => VInt (le_uint field)
  end.

(** The fields are laid out one after the other, without padding. *)
Fixpoint unpack_items (items : list item) (data : bytes) : list value :=
  match items with
  | [] => []
  | it :: items' =>
      unpack_item it (firstn (item_size it) data)
        :: unpack_items items' (skipn (item_size it) data)
  end.

(** [struct.unpack_from(fmt, data)] at offset 0: the buffer has to hold
    at least [calcsize(fmt)] bytes, what follows them is ignored. *)
Definition unpack_from (fmt : string) (data : bytes) : result (list value) :=
  items <- parse_format fmt ;;
  if (items_size items <=? List.length data)%nat
  then Ok (unpack_items items data)
  else Raise struct_error.

End struct.

(** ** The header *)

Definition HEADER_FMT : string := "<8sBHHBBH".

Record Header : Type := mkHeader {
  filename : bytes;
  filetype : Z;
  start : Z;
  length : Z;
  first_sector : Z;
  occupied_sectors : Z;
  check_sum : Z
}.

(** [Header._make(values)]: a tuple of another arity is a [TypeError].
    The fields of what [HEADER_FMT] unpacks have the kinds below; no other
    tuple reaches [_make] in this module. *)
Definition Header_make (values : list struct.value) : result Header :=
  match values with
  | [struct.VBytes fn; struct.VInt ft; struct.VInt st; struct.VInt ln;
     struct.VInt fs; struct.VInt oc; struct.VInt cs] =>
      Ok (mkHeader fn ft st ln fs oc cs)
  | _ => Raise TypeError
  end.

(** ** calc_checksum *)

(** [numpy.uint16(x)] on the sum of the loop: its low 16 bits.  The first
    sum is a Python integer below 65536; the later ones add Python integers
    to a [numpy.uint16], and whether numpy widens that sum and the
    conversion truncates it, or the additions wrap around themselves, the
    value is the sum modulo 65536. *)
Definition uint16 (x : Z) : Z := x mod 65536.

(** [enumerate(data)], counting from [i]. *)
Fixpoint enumerate_from {A} (i : Z) (l : list A) : list (Z * A) :=
  match l with
  | [] => []
  | x :: l' => (i, x) :: enumerate_from (i + 1) l'
  end.

Definition enumerate {A} (l : list A) : list (Z * A) := enumerate_from 0 l.

Definition checksum_step (check_sum : Z) (iv : Z * byte) : Z :=
  let '(i, value) := iv in
  uint16 (check_sum + byte_val value * 257 + i).

Definition calc_checksum (data : bytes) : Z :=
  fold_left checksum_step (enumerate data) 0.

(** ** Binary files *)

(** A file opened for reading ('rb'): its bytes and the read cursor. *)
Record file : Type := mkFile {
  content : bytes;
  pos : nat
}.

(** A file opened for writing ('wb'): its name and the bytes written. *)
Record ofile : Type := mkOfile {
  name : string;
  written : bytes
}.

(** The bytes between the cursor and the end of the file. *)
Definition rest (f : file) : bytes := skipn (pos f) (content f).

(** [f.read(n)]: up to [n] bytes from the cursor on, fewer at the end of
    the file and all of them when [n] is negative; the cursor moves past
    what was read. *)
Definition read (n : Z) (f : file) : bytes * file :=
  let data := if n <? 0 then rest f else firstn (Z.to_nat n) (rest f) in
  (data, mkFile (content f) (pos f + List.length data)).

(** [f.seek(offset)], from the start of the file.  The module seeks to
    offsets that are not negative only. *)
Definition seek (offset : Z) (f : file) : file :=
  mkFile (content f) (Z.to_nat offset).

(** [f.seek(offset, os.SEEK_END)] *)
Definition seek_end (offset : Z) (f : file) : file :=
  mkFile (content f) (Z.to_nat (len (content f) + offset)).

(** [f.tell()] *)
Definition tell (f : file) : Z := Z.of_nat (pos f).

(** [f.write(data)] *)
Definition write (data : bytes) (f : ofile) : ofile :=
  mkOfile (name f) (written f ++ data).

(** [data[0:stop]] *)
Definition slice_to (stop : Z) (data : bytes) : bytes :=
  if stop <? 0 then firstn (Z.to_nat (len data + stop)) data
  else firstn (Z.to_nat stop) data.

(** ** parse_info *)

Definition parse_info (hobeta_file : file) : result (Header * Z * file) :=
  header_len <- struct.calcsize HEADER_FMT ;;
  let '(data, hobeta_file) := read header_len hobeta_file in
  let actual_check_sum := calc_checksum (slice_to (header_len - 2) data) in
  values <- struct.unpack_from HEADER_FMT data ;;
  header <- Header_make values ;;
  Ok (header, actual_check_sum, hobeta_file).

(** ** Strings *)

Local Open Scope string_scope.

(** [str(n)] for an integer. *)
Definition str (n : Z) : string := NilZero.string_of_int (Z.to_int n).

(** [chr(n)], for the code points a one-byte field can hold. *)
Definition chr (n : Z) : string := String (ascii_of_N (Z.to_N n)) "".

(** [b.isascii()]: every byte is below 128. *)
Definition isascii (b : bytes) : bool :=
  forallb (fun x => (byte_val x <? 128)%Z) b.

(** [b.decode("ascii")] *)
Definition decode_ascii (b : bytes) : result string :=
  if isascii b
  then Ok (string_of_list_ascii (map ascii_of_byte b))
  else Raise UnicodeDecodeError.

Definition TAB : ascii := ascii_of_nat 9.
Definition LF : ascii := ascii_of_nat 10.
Definition CR : ascii := ascii_of_nat 13.

Fixpoint spaces (n : nat) : string :=
  match n with
  | O => ""
  | S n' => String " " (spaces n')
  end.

(** [s.expandtabs(tabsize)], [line_pos] being the current column. *)
Fixpoint expandtabs_from (tabsize line_pos : nat) (s : string) : string :=
  match s with
  | EmptyString => ""
  | String ch s' =>
      if Ascii.eqb ch TAB then
        if (0 <? tabsize)%nat then
          let incr := (tabsize - line_pos mod tabsize)%nat in
          spaces incr ++ expandtabs_from tabsize (line_pos + incr) s'
        else expandtabs_from tabsize line_pos s'
      else if Ascii.eqb ch LF || Ascii.eqb ch CR then
        String ch (expandtabs_from tabsize 0 s')
      else String ch (expandtabs_from tabsize (S line_pos) s')
  end.

Definition expandtabs (tabsize : nat) (s : string) : string :=
  expandtabs_from tabsize 0 s.

(** ** The command line *)

(** What [parse_args] hands to a command.  The [info] command gets the
    input file only; [strip] gets the three attributes. *)
Record Namespace : Type := mkNamespace {
  hobeta_file : file;
  output_file : ofile;
  ignore_header : bool
}.

(** ** show_info *)

(** The result is the text handed to [print]. *)
Definition show_info (parsed_args : Namespace) : result string :=
  '(header, crc, _) <- parse_info (hobeta_file parsed_args) ;;
  fname <- decode_ascii (filename header) ;;
  Ok (expandtabs 20
        ("File name:" ++ String TAB "" ++ fname ++ String LF "" ++
         "Extension:" ++ String TAB "" ++ chr (filetype header) ++ String LF "" ++
         (if (filetype header =? 66)%Z
          then "Prg LEN:" ++ String TAB ""
          else "Place at:" ++ String TAB "") ++
         str (start header) ++ String LF "" ++
         "File size:" ++ String TAB "" ++ str (length header) ++ String LF "" ++
         "First sector:" ++ String TAB "" ++ str (first_sector header) ++ String LF "" ++
         "Occupied sectors:" ++ String TAB "" ++ str (occupied_sectors header) ++ String LF "" ++
         "Check sum:" ++ String TAB "" ++ str (check_sum header) ++ " " ++
         (if (crc =? check_sum header)%Z
          then "(OK)"
          else "(WRONG! Should be " ++ str crc ++ ")"))).

(** ** strip_header *)

Definition buf_size : Z := 512 * 1024.

(** How far the cursor is from the end of the file. *)
Definition remaining (f : file) : nat := (List.length (content f) - pos f)%nat.

(** The [while length:] loop of [strip_header]: the values of [src_file],
    [dst_file] and [length] when it is left. *)
Equations? copy_loop (src_file : file) (dst_file : ofile) (length : Z)
  : file * ofile * Z by wf (remaining src_file) lt :=
  copy_loop src_file dst_file length with Z.eqb length 0 := {
    | true := (src_file, dst_file, length);
    | false with Logic.inspect (read (Z.min buf_size length) src_file) := {
        | exist _ ([], src_file') _ := (src_file', dst_file, length);
        | exist _ (b :: data, src_file') e :=
            copy_loop src_file' (write (b :: data) dst_file)
                      (length - len (b :: data)) } }.
Proof.
  (* a read that returns something moves the cursor towards the end *)
  unfold remaining. cbn [content pos].
  match goal with
  | E : ?d = _ :: _ |- _ =>
      assert (Hlen : (List.length d <= List.length (content src_file) - pos src_file)%nat);
      [ unfold rest; destruct (_ <? 0)%Z;
        [ rewrite length_skipn | rewrite length_firstn, length_skipn ]; lia
      | rewrite E in *; simpl List.length in *; lia ]
  end.
Qed.

(** What a run of [strip_header] leaves behind. *)
Record outcome : Type := mkOutcome {
  src_after : file;
  dst_after : ofile;
  printed : list string;
  returned : Z
}.

(** The two files are used inside [with] blocks; closing them when the
    blocks are left is not part of the model. *)
Definition strip_header (parsed_args : Namespace) : result outcome :=
  '(header, crc, src_file) <- parse_info (hobeta_file parsed_args) ;;
  let warning :=
    if negb (check_sum header =? crc)%Z
    then ["WARNING: wrong checksum in the header."] else [] in
  header_size <- struct.calcsize HEADER_FMT ;;
  let src_file := seek_end 0 src_file in
  let hobeta_file_size := tell src_file in
  let bytes_to_copy :=
    if ignore_header parsed_args
    then hobeta_file_size - header_size
    else length header in
  let src_file := seek header_size src_file in
  let '(src_file, dst_file, length) :=
    copy_loop src_file (output_file parsed_args) bytes_to_copy in
  Ok (mkOutcome src_file dst_file
        (warning ++
         ["Created file " ++ name dst_file ++ ", " ++
          str (bytes_to_copy - length) ++ " bytes copied."])
        (bytes_to_copy - length)).

(** ** Reference definitions, in the words of the format description *)

Local Close Scope string_scope.

(** The checksum recurrence by zero-based index: the accumulator after the
    first [k] bytes, truncated to 16 bits at every step. *)
Fixpoint reference_acc (data : bytes) (k : nat) : Z :=
  match k with
  | O => 0
  | S i =>
      (reference_acc data i + byte_val (nth i data x00) * 257 + Z.of_nat i)
        mod 65536
  end.

Definition reference_checksum (data : bytes) : Z :=
  reference_acc data (List.length data).

(** The layout of the 17 header bytes, field by field. *)
Definition layout_header (data : bytes) : Header :=
  {| filename := firstn 8 data;
     filetype := byte_val (nth 8 data x00);
     start := byte_val (nth 9 data x00) + 256 * byte_val (nth 10 data x00);
     length := byte_val (nth 11 data x00) + 256 * byte_val (nth 12 data x00);
     first_sector := byte_val (nth 13 data x00);
     occupied_sectors := byte_val (nth 14 data x00);
     check_sum := byte_val (nth 15 data x00) + 256 * byte_val (nth 16 data x00) |}.

(** [data[i] = b] on a copy of [data]. *)
Fixpoint update (i : nat) (b : byte) (data : bytes) : bytes :=
  match data, i with
  | [], _ => []
  | _ :: t, O => b :: t
  | a :: t, S i' => a :: update i' b t
  end.

(** The input with the bytes at [i] and [j] exchanged. *)
Definition swap (i j : nat) (data : bytes) : bytes :=
  update i (nth j data x00) (update j (nth i data x00) data).

(** The sum of the byte values, and the sum of the indices [i], [i+1], ... *)
Definition byte_sum (data : bytes) : Z :=
  fold_right (fun b acc => byte_val b + acc) 0 data.

Fixpoint index_sum (i : Z) (n : nat) : Z :=
  match n with
  | O => 0
  | S n' => i + index_sum (i + 1) n'
  end.

(** How many bytes a budget of [n] gets out of a file. *)
Definition copied (src_file : file) (n : Z) : nat :=
  Nat.min (Z.to_nat n) (remaining src_file).

(** The byte budget of a run: the file size less the header when the
    declared length is ignored, the declared length otherwise. *)
Definition budget (ignore : bool) (file_size : Z) (header : Header) : Z :=
  if ignore then file_size - 17 else length header.

(** The lines [strip_header] prints. *)
Definition strip_report (header : Header) (crc : Z) (dst_name : string)
  (n : Z) : list string :=
  ((if negb (check_sum header =? crc)
    then ["WARNING: wrong checksum in the header."%string] else [])
   ++ [("Created file " ++ dst_name ++ ", " ++ str n ++ " bytes copied.")%string])%list.

(** ** Sample data *)

(** A header for "TESTFILE", type 'B', start 100, length 4, first sector 3,
    one sector, with the checksum 4471 of its first 15 bytes. *)
Definition sample_header : bytes :=
  [x54; x45; x53; x54; x46; x49; x4c; x45; x42; x64; x00; x04; x00; x03; x01;
   x77; x11].

Definition sample_payload : bytes := [x0a; x0b; x0c; x0d].

Definition sample_file : file := mkFile (sample_header ++ sample_payload) 0.

Definition sample_output : ofile := mkOfile "out.bin" [].

(** The same header with a wrong stored checksum. *)
Definition wrong_checksum_header : bytes :=
  firstn 15 sample_header ++ [x00; x00].

(** A header whose stored checksum is wrong and whose file name holds a
    byte that is not ASCII. *)
Definition foreign_header : bytes :=
  [xff; x45; x53; x54; x46; x49; x4c; x45; x42; x64; x00; x04; x00; x03; x01;
   x00; x00].

(** The [foreign_header] with the checksum 48418 of its first 15 bytes
    stored in the bytes 15 and 16. *)
Definition resealed_foreign_header : bytes :=
  firstn 15 foreign_header ++ [x22; xbd].

(** ** A statement of the format description, as it is worded *)

(** Swapping two different bytes of a 15-byte input changes the checksum. *)
Definition order_sensitive : Prop :=
  forall (data : bytes) (i j : nat),
    List.length data = 15%nat -> (i < 15)%nat -> (j < 15)%nat -> i <> j ->
    nth i data x00 <> nth j data x00 ->
    calc_checksum (swap i j data) <> calc_checksum data.

(** ** Predicates on texts *)

(** The text holds a tab character. *)
Fixpoint has_tab (s : string) : bool :=
  match s with
  | EmptyString => false
  | String ch s' => Ascii.eqb ch TAB || has_tab s'
  end.

(** The text holds no tab, line feed or carriage return: [expandtabs]
    leaves it alone. *)
Fixpoint plain (s : string) : bool :=
  match s with
  | EmptyString => true
  | String ch s' =>
      negb (Ascii.eqb ch TAB) && negb (Ascii.eqb ch LF || Ascii.eqb ch CR)
      && plain s'
  end.

(** The characters of a [bytes] object, one per byte. *)
Definition chars (b : bytes) : string :=
  string_of_list_ascii (map ascii_of_byte b).

(** The byte of a value below 256. *)
Definition byte_of (z : Z) : byte :=
  match Byte.of_N (Z.to_N z) with
  | Some b => b
  | None => x00
  end.

(** ** calc_checksum: the recurrence *)

Lemma byte_val_range (b : byte) : 0 <= byte_val b < 256.
Proof. destruct b; vm_compute; split; congruence. Qed.

Lemma uint16_range (x : Z) : 0 <= uint16 x < 65536.
Proof. unfold uint16. apply Z.mod_pos_bound. lia. Qed.

Lemma enumerate_from_app {A} (l1 l2 : list A) (i : Z) :
  enumerate_from i (l1 ++ l2)
  = (enumerate_from i l1 ++ enumerate_from (i + len l1) l2)%list.
Proof.
  revert i. induction l1 as [|a l1 IH]; intros i; cbn [enumerate_from app].
  - unfold len. cbn. now rewrite Z.add_0_r.
  - rewrite IH. do 3 f_equal. unfold len. cbn [List.length]. lia.
Qed.

Lemma reference_acc_app (l1 l2 : bytes) (k : nat) :
  (k <= List.length l1)%nat -> reference_acc (l1 ++ l2) k = reference_acc l1 k.
Proof.
  induction k as [|k IH]; intros Hk; cbn [reference_acc]; [reflexivity|].
  rewrite IH by lia. rewrite app_nth1 by lia. reflexivity.
Qed.

(** The loop of [calc_checksum] run over a prefix leaves the accumulator of
    the recurrence. *)
Lemma calc_checksum_prefix (data : bytes) :
  fold_left checksum_step (enumerate data) 0
  = reference_acc data (List.length data).
Proof.
  induction data as [|b data IH] using rev_ind; [reflexivity|].
  unfold enumerate in *. rewrite enumerate_from_app, fold_left_app, IH.
  rewrite length_app. cbn [List.length enumerate_from fold_left checksum_step].
  replace (List.length data + 1)%nat with (S (List.length data)) by lia.
  cbn [reference_acc]. rewrite reference_acc_app by lia.
  rewrite nth_middle. unfold uint16, len. rewrite Z.add_0_l. reflexivity.
Qed.

Lemma reference_acc_range (data : bytes) (k : nat) :
  0 <= reference_acc data k < 65536.
Proof.
  destruct k; cbn [reference_acc]; [lia|]. apply Z.mod_pos_bound. lia.
Qed.

(** ** parse_info *)

Lemma calcsize_HEADER_FMT : struct.calcsize HEADER_FMT = Ok 17.
Proof. reflexivity. Qed.

Lemma parse_format_HEADER_FMT :
  struct.parse_format HEADER_FMT
  = Ok [struct.Chars 8; struct.UByte; struct.UShort; struct.UShort;
        struct.UByte; struct.UByte; struct.UShort].
Proof. reflexivity. Qed.

Lemma length_rest (f : file) : List.length (rest f) = remaining f.
Proof. unfold rest, remaining. apply length_skipn. Qed.

Lemma read_header_len (f : file) :
  read 17 f
  = (firstn 17 (rest f),
     mkFile (content f) (pos f + Nat.min 17 (remaining f))).
Proof.
  unfold read. change (17 <? 0) with false. cbv iota.
  change (Z.to_nat 17) with 17%nat.
  now rewrite length_firstn, length_rest.
Qed.

Lemma bytes17 (data : bytes) :
  List.length data = 17%nat ->
  exists b0 b1 b2 b3 b4 b5 b6 b7 b8 b9 b10 b11 b12 b13 b14 b15 b16,
    data = [b0; b1; b2; b3; b4; b5; b6; b7; b8; b9; b10; b11; b12; b13; b14;
            b15; b16].
Proof.
  intros H.
  do 17 (destruct data as [|? data]; [discriminate H|]).
  destruct data; [|discriminate H].
  repeat eexists.
Qed.

(** Unpacking a buffer of exactly 17 bytes gives the fields of the layout. *)
Lemma unpack_layout (data : bytes) :
  List.length data = 17%nat ->
  values <- struct.unpack_from HEADER_FMT data ;; Header_make values
  = Ok (layout_header data).
Proof.
  intros H. unfold struct.unpack_from.
  rewrite parse_format_HEADER_FMT. cbn [bind].
  change (struct.items_size _) with 17%nat. rewrite H. cbn [Nat.leb].
  destruct (bytes17 data H)
    as (b0 & b1 & b2 & b3 & b4 & b5 & b6 & b7 & b8 & b9 & b10 & b11 & b12
        & b13 & b14 & b15 & b16 & ->).
  cbn [bind struct.unpack_items struct.unpack_item struct.item_size firstn
       skipn Header_make struct.le_uint fold_right].
  unfold layout_header. cbn [nth firstn]. f_equal. f_equal; lia.
Qed.

(** With 17 bytes or more behind the cursor, [parse_info] returns the
    header of the layout, the checksum of the first 15 of the 17 bytes, and
    the file with the cursor 17 bytes further. *)
Lemma parse_info_ok (f : file) :
  (17 <= remaining f)%nat ->
  parse_info f
  = Ok (layout_header (firstn 17 (rest f)),
        calc_checksum (firstn 15 (firstn 17 (rest f))),
        mkFile (content f) (pos f + 17)).
Proof.
  intros H. unfold parse_info. rewrite calcsize_HEADER_FMT. cbn [bind].
  rewrite read_header_len. cbv iota beta.
  assert (Hlen : List.length (firstn 17 (rest f)) = 17%nat).
  { rewrite length_firstn, length_rest. lia. }
  pose proof (unpack_layout _ Hlen) as Hu.
  destruct (struct.unpack_from HEADER_FMT (firstn 17 (rest f)))
    as [values|e]; cbn [bind] in *; [|discriminate Hu].
  rewrite Hu. cbn [bind]. do 2 f_equal.
  f_equal. lia.
Qed.

(** With fewer than 17 bytes behind the cursor, unpacking raises. *)
Lemma parse_info_short (f : file) :
  (remaining f < 17)%nat -> parse_info f = Raise struct_error.
Proof.
  intros H. unfold parse_info. rewrite calcsize_HEADER_FMT. cbn [bind].
  rewrite read_header_len. cbv iota beta.
  unfold struct.unpack_from. rewrite parse_format_HEADER_FMT. cbn [bind].
  change (struct.items_size _) with 17%nat.
  rewrite length_firstn, length_rest.
  destruct (Nat.leb_spec 17 (Nat.min 17 (remaining f))); [lia|reflexivity].
Qed.

(** ** The copy loop *)

Lemma firstn_plus {A} (a b : nat) (l : list A) :
  firstn (a + b) l = (firstn a l ++ firstn b (skipn a l))%list.
Proof.
  revert l. induction a as [|a IH]; intros l; [reflexivity|].
  destruct l as [|x l]; cbn [Nat.add firstn skipn app].
  - now rewrite firstn_nil.
  - now rewrite IH.
Qed.

Lemma firstn_own_length {A} (m : nat) (l : list A) :
  firstn (List.length (firstn m l)) l = firstn m l.
Proof.
  rewrite length_firstn.
  destruct (Nat.le_ge_cases m (List.length l)).
  - now rewrite Nat.min_l.
  - rewrite Nat.min_r by assumption. now rewrite !firstn_all2 by lia.
Qed.

Lemma file_eta (f : file) : mkFile (content f) (pos f + 0) = f.
Proof. destruct f. cbn. now rewrite Nat.add_0_r. Qed.

Lemma write_nil (f : ofile) : write [] f = f.
Proof. destruct f. unfold write. cbn. now rewrite app_nil_r. Qed.

Lemma rest_advance (f : file) (c : nat) :
  rest (mkFile (content f) (pos f + c)) = skipn c (rest f).
Proof. unfold rest. cbn [content pos]. now rewrite skipn_skipn, Nat.add_comm. Qed.

(** The loop transfers [copied src_file n] bytes, the ones right behind the
    cursor, and leaves the rest of the budget in [length]. *)
Lemma copy_loop_spec (src_file : file) (dst_file : ofile) (n : Z) :
  0 <= n ->
  copy_loop src_file dst_file n
  = (mkFile (content src_file) (pos src_file + copied src_file n),
     write (firstn (copied src_file n) (rest src_file)) dst_file,
     n - Z.of_nat (copied src_file n)).
Proof.
  revert src_file dst_file n.
  apply (copy_loop_elim
           (fun src dst n r =>
              0 <= n ->
              r = (mkFile (content src) (pos src + copied src n),
                   write (firstn (copied src n) (rest src)) dst,
                   n - Z.of_nat (copied src n)))).
  - (* the budget is used up *)
    intros src dst n Hz _. apply Z.eqb_eq in Hz. subst n.
    unfold copied. cbn [Z.to_nat Nat.min firstn].
    now rewrite file_eta, write_nil, Z.sub_0_r.
  - (* the source is exhausted: break *)
    intros src dst n src' e _ Hz Hn. apply Z.eqb_neq in Hz.
    unfold read in e. injection e as Hd Hs.
    assert (Hc : (0 < Z.min buf_size n)) by (unfold buf_size; lia).
    destruct (Z.ltb_spec (Z.min buf_size n) 0) as [?|_]; [lia|].
    assert (Hr : remaining src = 0%nat).
    { rewrite <- length_rest.
      destruct (rest src) as [|x r]; [reflexivity|].
      destruct (Z.to_nat (Z.min buf_size n)) eqn:E; [lia|discriminate Hd]. }
    subst src'. rewrite Hd. unfold copied. rewrite Hr, Nat.min_0_r.
    cbn [List.length firstn]. now rewrite write_nil, Z.sub_0_r.
  - (* one chunk is transferred *)
    intros src dst n b data src' e IH _ Hz Hn. apply Z.eqb_neq in Hz.
    unfold read in e. injection e as Hd Hs.
    assert (Hc : (0 < Z.min buf_size n)) by (unfold buf_size; lia).
    destruct (Z.ltb_spec (Z.min buf_size n) 0) as [?|_]; [lia|].
    set (m := Z.to_nat (Z.min buf_size n)) in *.
    assert (Hlen : List.length (b :: data) = Nat.min m (remaining src)).
    { rewrite <- Hd, length_firstn, length_rest. reflexivity. }
    rewrite Hd in Hs. set (c := List.length (b :: data)) in *.
    assert (Hrem : remaining src' = (remaining src - c)%nat).
    { subst src'. unfold remaining. cbn [content pos]. lia. }
    assert (Hk : (c + copied src' (n - len (b :: data)))%nat = copied src n).
    { unfold copied, len. fold c. rewrite Hrem. subst m. lia. }
    rewrite IH by (unfold len; fold c; subst m; lia).
    rewrite <- Hk. f_equal; [f_equal|].
    + subst src'. cbn [content pos]. f_equal. lia.
    + unfold write. cbn [name written]. f_equal.
      rewrite <- app_assoc. f_equal.
      rewrite firstn_plus. f_equal.
      * subst c. rewrite <- Hd. symmetry. apply firstn_own_length.
      * subst src'. now rewrite rest_advance.
    + unfold len. fold c. lia.
Qed.

(** ** strip_header *)

Lemma layout_length_nonneg (data : bytes) : 0 <= length (layout_header data).
Proof.
  unfold layout_header. cbn [length].
  pose proof (byte_val_range (nth 11 data x00)).
  pose proof (byte_val_range (nth 12 data x00)). lia.
Qed.

(** A run on a file with 17 bytes or more behind the cursor: the header is
    read at the cursor, the payload is copied from offset 17 on. *)
Lemma strip_header_ok (parsed_args : Namespace) :
  let f := hobeta_file parsed_args in
  let header := layout_header (firstn 17 (rest f)) in
  let crc := calc_checksum (firstn 15 (firstn 17 (rest f))) in
  let b := budget (ignore_header parsed_args) (len (content f)) header in
  let k := Nat.min (Z.to_nat b) (List.length (content f) - 17) in
  (17 <= remaining f)%nat ->
  strip_header parsed_args
  = Ok (mkOutcome
          (mkFile (content f) (17 + k))
          (write (firstn k (skipn 17 (content f))) (output_file parsed_args))
          (strip_report header crc (name (output_file parsed_args))
             (Z.of_nat k))
          (Z.of_nat k)).
Proof.
  intros f header crc b k H. unfold strip_header. fold f.
  rewrite parse_info_ok by exact H. cbn [bind].
  rewrite calcsize_HEADER_FMT. cbn [bind]. fold header crc.
  unfold seek_end, seek, tell. cbn [content pos].
  change (Z.to_nat 17) with 17%nat.
  assert (Hsize : (17 <= List.length (content f))%nat)
    by (unfold remaining in H; lia).
  replace (Z.of_nat (Z.to_nat (len (content f) + 0))) with (len (content f))
    by (unfold len; lia).
  change (if ignore_header parsed_args then len (content f) - 17
          else length header) with b.
  assert (Hb : 0 <= b).
  { subst b. unfold budget. destruct (ignore_header parsed_args).
    - unfold len. lia.
    - apply layout_length_nonneg. }
  rewrite copy_loop_spec by exact Hb.
  unfold copied, remaining, rest. cbn [content pos]. fold k.
  replace (b - (b - Z.of_nat k)) with (Z.of_nat k) by lia.
  unfold strip_report, write. cbn [name written]. reflexivity.
Qed.

(** ** calc_checksum: the closed form *)

Lemma checksum_fold_closed (data : bytes) (i acc : Z) :
  0 <= acc < 65536 ->
  fold_left checksum_step (enumerate_from i data) acc
  = (acc + 257 * byte_sum data + index_sum i (List.length data)) mod 65536.
Proof.
  revert i acc. induction data as [|b data IH]; intros i acc Hacc.
  - cbn. rewrite Z.add_0_r, Z.add_0_r. symmetry. now apply Z.mod_small.
  - cbn [enumerate_from fold_left checksum_step byte_sum fold_right
         List.length index_sum].
    rewrite IH by apply uint16_range. unfold uint16.
    fold (byte_sum data).
    rewrite <- Z.add_assoc, Zplus_mod_idemp_l.
    f_equal. lia.
Qed.

Lemma calc_checksum_closed (data : bytes) :
  calc_checksum data
  = (257 * byte_sum data + index_sum 0 (List.length data)) mod 65536.
Proof.
  unfold calc_checksum, enumerate. rewrite checksum_fold_closed by lia.
  f_equal.
Qed.

Lemma length_update (i : nat) (b : byte) (data : bytes) :
  List.length (update i b data) = List.length data.
Proof.
  revert i. induction data as [|a data IH]; intros [|i]; cbn; auto.
Qed.

Lemma byte_sum_update (i : nat) (b : byte) (data : bytes) :
  (i < List.length data)%nat ->
  byte_sum (update i b data)
  = byte_sum data - byte_val (nth i data x00) + byte_val b.
Proof.
  revert i. induction data as [|a data IH]; intros i Hi; cbn in Hi; [lia|].
  destruct i as [|i]; cbn [update byte_sum fold_right nth].
  - fold (byte_sum data). lia.
  - fold (byte_sum data) (byte_sum (update i b data)).
    rewrite IH by lia. lia.
Qed.

Lemma nth_update (i j : nat) (b : byte) (data : bytes) :
  (j < List.length data)%nat ->
  nth i (update j b data) x00 = if Nat.eqb i j then b else nth i data x00.
Proof.
  revert i j. induction data as [|a data IH]; intros i j Hj; cbn in Hj; [lia|].
  destruct j as [|j], i as [|i]; cbn [update nth Nat.eqb]; try reflexivity.
  apply IH. lia.
Qed.

Lemma byte_sum_swap (i j : nat) (data : bytes) :
  (i < List.length data)%nat -> (j < List.length data)%nat ->
  byte_sum (swap i j data) = byte_sum data.
Proof.
  intros Hi Hj. unfold swap.
  rewrite byte_sum_update by (rewrite length_update; exact Hi).
  rewrite byte_sum_update by exact Hj.
  rewrite nth_update by exact Hj.
  destruct (Nat.eqb_spec i j) as [->|_]; lia.
Qed.

Lemma byte_sum_Permutation (l l' : bytes) :
  Permutation l l' -> byte_sum l = byte_sum l'.
Proof.
  induction 1; cbn [byte_sum fold_right]; fold byte_sum in *;
    repeat match goal with
    | |- context [fold_right _ 0 ?l] => change (fold_right _ 0 l) with (byte_sum l)
    end; lia.
Qed.

(** The checksum depends on the bytes through their sum only: any
    rearrangement of the input has the same checksum. *)
Lemma calc_checksum_Permutation (l l' : bytes) :
  Permutation l l' -> calc_checksum l = calc_checksum l'.
Proof.
  intros H. rewrite !calc_checksum_closed.
  now rewrite (byte_sum_Permutation _ _ H), (Permutation_length H).
Qed.

(** * Properties of the module *)

(** ** The checksum *)

(** C1: for every byte sequence [calc_checksum] is the reference recurrence
    by zero-based index, starting at 0 and truncated modulo 65536 at every
    step: after [k] bytes the loop holds the [k]-th accumulator of the
    recurrence, and every accumulator is a 16-bit value; and
    [parse_info], given 17 bytes or more, returns the checksum of exactly
    the first 15 of the 17 header bytes. *)
Theorem calc_checksum_reference (data : bytes) (f : file) :
  calc_checksum data = reference_checksum data /\
  (forall k : nat,
      (k <= List.length data)%nat ->
      fold_left checksum_step (enumerate (firstn k data)) 0
      = reference_acc data k) /\
  (forall k : nat,
      reference_acc data (S k)
      = (reference_acc data k + byte_val (nth k data x00) * 257 + Z.of_nat k)
          mod 65536
      /\ 0 <= reference_acc data k < 65536) /\
  ((17 <= remaining f)%nat ->
   exists header f',
     parse_info f
     = Ok (header, reference_checksum (firstn 15 (firstn 17 (rest f))), f')).
Proof.
  split; [apply calc_checksum_prefix|]. split; [|split].
  - intros k Hk. rewrite calc_checksum_prefix, length_firstn, Nat.min_l by lia.
    rewrite <- (firstn_skipn k data) at 2.
    rewrite reference_acc_app; [reflexivity|]. rewrite length_firstn. lia.
  - intros k. split; [reflexivity | apply reference_acc_range].
  - intros H. do 2 eexists. rewrite parse_info_ok by exact H.
    unfold reference_checksum. now rewrite <- calc_checksum_prefix.
Qed.

Lemma calc_checksum_reference_witness :
  calc_checksum sample_header = reference_checksum sample_header /\
  exists header f',
    parse_info sample_file
    = Ok (header,
          reference_checksum (firstn 15 (firstn 17 (rest sample_file))), f').
Proof.
  destruct (calc_checksum_reference sample_header sample_file)
    as (Hc & _ & _ & Hp).
  split; [exact Hc|]. apply Hp. vm_compute. lia.
Defined.

(** C2, as it is stated, fails: exchanging the first two bytes of
    [1; 2; 0; ...; 0] leaves the checksum where it was. *)
Lemma order_sensitive_fails : ~ order_sensitive.
Proof.
  intros H.
  apply (H (x01 :: x02 :: repeat x00 13) 0%nat 1%nat);
    try (vm_compute; lia); try reflexivity; discriminate.
Qed.

(** C2, amended: exchanging the bytes at two indices of an input never
    changes the checksum, which is
    [(257 * (sum of the bytes) + (sum of the indices)) mod 65536] and so
    depends on the bytes through their sum only. *)
Theorem calc_checksum_swap (data : bytes) (i j : nat) :
  (i < List.length data)%nat -> (j < List.length data)%nat ->
  calc_checksum (swap i j data) = calc_checksum data /\
  calc_checksum data
  = (257 * byte_sum data + index_sum 0 (List.length data)) mod 65536.
Proof.
  intros Hi Hj. split; [|apply calc_checksum_closed].
  rewrite !calc_checksum_closed. unfold swap at 2.
  rewrite !length_update. now rewrite byte_sum_swap.
Qed.

Lemma calc_checksum_swap_witness :
  calc_checksum (swap 0 9 (firstn 15 sample_header))
  = calc_checksum (firstn 15 sample_header).
Proof.
  apply (calc_checksum_swap (firstn 15 sample_header) 0 9); vm_compute; lia.
Defined.

(** ** Decoding *)

(** C6: on every 17 bytes [parse_info] returns a header, whose fields are
    the ones of the little-endian layout (file name bytes 0-7, type byte 8,
    start bytes 9-10, length bytes 11-12, first sector byte 13, occupied
    sectors byte 14, checksum bytes 15-16), and the header depends on these
    17 bytes only: any other file holding the same 17 bytes at its cursor
    gives the same header. *)
Theorem parse_info_layout (f : file) :
  (17 <= remaining f)%nat ->
  let data := firstn 17 (rest f) in
  exists header crc,
    parse_info f = Ok (header, crc, mkFile (content f) (pos f + 17)) /\
    filename header = firstn 8 data /\
    filetype header = byte_val (nth 8 data x00) /\
    start header = byte_val (nth 9 data x00) + 256 * byte_val (nth 10 data x00) /\
    length header = byte_val (nth 11 data x00) + 256 * byte_val (nth 12 data x00) /\
    first_sector header = byte_val (nth 13 data x00) /\
    occupied_sectors header = byte_val (nth 14 data x00) /\
    check_sum header
    = byte_val (nth 15 data x00) + 256 * byte_val (nth 16 data x00) /\
    (forall g : file,
        (17 <= remaining g)%nat -> firstn 17 (rest g) = data ->
        parse_info g = Ok (header, crc, mkFile (content g) (pos g + 17))).
Proof.
  intros H data. do 2 eexists. split; [apply parse_info_ok; exact H|].
  repeat (split; [reflexivity|]).
  intros g Hg Hd. rewrite parse_info_ok by exact Hg. now rewrite Hd.
Qed.

Lemma parse_info_layout_witness :
  exists header crc,
    parse_info sample_file = Ok (header, crc, mkFile (content sample_file) 17) /\
    filetype header = 66 /\ start header = 100 /\ length header = 4 /\
    check_sum header = 4471.
Proof.
  assert (H : (17 <= remaining sample_file)%nat) by (vm_compute; lia).
  destruct (parse_info_layout sample_file H)
    as (header & crc & Hp & _ & Ht & Hs & Hl & _ & _ & Hc & _).
  exists header, crc. repeat split; assumption.
Defined.

(** C7: with fewer than 17 bytes to read [parse_info] raises
    ([struct.error], out of [struct.unpack_from]) and returns no header;
    it succeeds exactly when 17 bytes are there, and then consumes exactly
    these 17 bytes. *)
Theorem parse_info_truncated (f : file) :
  (remaining f < 17)%nat ->
  parse_info f = Raise struct_error /\
  (forall r, parse_info f <> Ok r) /\
  (forall g : file,
      (exists r, parse_info g = Ok r) <-> (17 <= remaining g)%nat) /\
  (forall g header crc g',
      parse_info g = Ok (header, crc, g') ->
      g' = mkFile (content g) (pos g + 17)).
Proof.
  intros H. pose proof (parse_info_short f H) as E.
  split; [exact E|]. split; [intros r Hr; congruence|]. split.
  - intros g. split.
    + intros [r Hr]. destruct (Nat.le_gt_cases 17 (remaining g)) as [?|Hlt];
        [assumption|]. rewrite (parse_info_short g Hlt) in Hr. discriminate.
    + intros Hg. eexists. apply parse_info_ok. exact Hg.
  - intros g header crc g' Hp.
    destruct (Nat.le_gt_cases 17 (remaining g)) as [Hg|Hlt].
    + rewrite (parse_info_ok g Hg) in Hp. congruence.
    + rewrite (parse_info_short g Hlt) in Hp. discriminate.
Qed.

Lemma parse_info_truncated_witness :
  parse_info (mkFile (firstn 16 sample_header) 0) = Raise struct_error.
Proof.
  apply (parse_info_truncated (mkFile (firstn 16 sample_header) 0)).
  vm_compute. lia.
Defined.

(** ** Stripping the header *)

Section Strip.

Variable parsed_args : Namespace.

Let f := hobeta_file parsed_args.
Let header := layout_header (firstn 17 (rest f)).
Let b := budget (ignore_header parsed_args) (len (content f)) header.
Let k := Nat.min (Z.to_nat b) (List.length (content f) - 17).

Hypothesis enough : (17 <= remaining f)%nat.

Lemma budget_nonneg : 0 <= b.
Proof.
  unfold b, budget. destruct (ignore_header parsed_args).
  - unfold remaining in enough. unfold len. lia.
  - apply layout_length_nonneg.
Qed.

(** The loop of the run is the loop started at offset 17 with the
    budget. *)
Lemma loop_from_header_size :
  copy_loop (seek 17 f) (output_file parsed_args) b
  = (mkFile (content f) (17 + k),
     write (firstn k (skipn 17 (content f))) (output_file parsed_args),
     b - Z.of_nat k).
Proof.
  rewrite copy_loop_spec by apply budget_nonneg.
  unfold copied, remaining, rest, seek. cbn [content pos].
  change (Z.to_nat 17) with 17%nat. reflexivity.
Qed.

Lemma length_copied_bytes :
  List.length (firstn k (skipn 17 (content f))) = k.
Proof. rewrite length_firstn, length_skipn. unfold k. lia. Qed.

Lemma copied_all :
  (List.length (content f) - 17 <= Z.to_nat b)%nat ->
  firstn k (skipn 17 (content f)) = skipn 17 (content f).
Proof.
  intros H. apply firstn_all2. rewrite length_skipn. unfold k. lia.
Qed.

End Strip.

(** C3: the run is the copy loop started at offset 17 with a budget that
    is the file size less the 17 header bytes when [ignore_header] is set
    and [header.length] when it is not; with [ignore_header] set the run
    returns the file size less 17, whatever the length field says, and
    copies all that follows the header. *)
Theorem strip_header_budget (parsed_args : Namespace) :
  let f := hobeta_file parsed_args in
  (17 <= remaining f)%nat ->
  exists header crc f' out left,
    parse_info f = Ok (header, crc, f') /\
    strip_header parsed_args = Ok out /\
    copy_loop (seek 17 f) (output_file parsed_args)
      (if ignore_header parsed_args
       then len (content f) - 17 else length header)
    = (src_after out, dst_after out, left) /\
    returned out
    = (if ignore_header parsed_args
       then len (content f) - 17 else length header) - left /\
    (ignore_header parsed_args = true ->
     returned out = len (content f) - 17 /\
     written (dst_after out)
     = (written (output_file parsed_args) ++ skipn 17 (content f))%list).
Proof.
  intros f H.
  pose proof (strip_header_ok parsed_args H) as Hs.
  pose proof (loop_from_header_size parsed_args H) as Hl.
  pose proof (copied_all parsed_args) as Ha.
  cbv zeta in Hs, Hl, Ha. fold f in Hs, Hl, Ha.
  do 5 eexists. split; [apply parse_info_ok; exact H|].
  split; [exact Hs|]. cbn [src_after dst_after returned].
  split; [exact Hl|]. split; [unfold budget; lia|].
  intros Hi. unfold budget in *. rewrite Hi in *.
  assert (Hsize : (17 <= List.length (content f))%nat)
    by (unfold remaining in H; lia).
  unfold len in *. split; [lia|].
  unfold write. cbn [written]. rewrite Ha by lia. reflexivity.
Qed.

Lemma strip_header_budget_witness :
  exists out,
    strip_header (mkNamespace sample_file sample_output true) = Ok out /\
    returned out = 4.
Proof.
  assert (H : (17 <= remaining sample_file)%nat) by (vm_compute; lia).
  destruct (strip_header_budget (mkNamespace sample_file sample_output true) H)
    as (header & crc & f' & out & left & _ & Hs & _ & _ & Hi).
  exists out. split; [exact Hs|]. exact (proj1 (Hi eq_refl)).
Defined.

(** C4: a header whose length field is [L], followed by exactly [L] payload
    bytes: without [ignore_header] the run returns [L] and appends the
    payload, all of it, to what the sink holds (nothing, for the freshly
    opened output file). *)
Theorem strip_header_round_trip (hb payload : bytes) (dst : ofile)
  (header : Header) (crc : Z) (f' : file) :
  List.length hb = 17%nat ->
  parse_info (mkFile (hb ++ payload) 0) = Ok (header, crc, f') ->
  len payload = length header ->
  exists out,
    strip_header (mkNamespace (mkFile (hb ++ payload) 0) dst false) = Ok out /\
    returned out = length header /\
    written (dst_after out) = (written dst ++ payload)%list /\
    written (dst_after out)
    = (written dst ++ firstn (Z.to_nat (length header)) payload)%list.
Proof.
  intros Hhb Hp HL.
  set (args := mkNamespace (mkFile (hb ++ payload) 0) dst false).
  assert (H : (17 <= remaining (mkFile (hb ++ payload) 0))%nat).
  { unfold remaining. cbn [content pos]. rewrite length_app. lia. }
  pose proof (strip_header_ok args H) as Hs. cbv zeta in Hs.
  change (hobeta_file args) with (mkFile (hb ++ payload) 0) in Hs.
  assert (Hh : layout_header (firstn 17 (rest (mkFile (hb ++ payload) 0)))
               = header)
    by (rewrite (parse_info_ok _ H) in Hp; congruence).
  rewrite Hh in Hs. unfold budget in Hs.
  change (ignore_header args) with false in Hs.
  change (output_file args) with dst in Hs.
  cbn [content] in Hs.
  rewrite length_app, Hhb in Hs.
  replace (Nat.min (Z.to_nat (length header)) (17 + List.length payload - 17))
    with (List.length payload) in Hs by (unfold len in HL; lia).
  replace (skipn 17 (hb ++ payload)) with payload in Hs
    by (rewrite <- Hhb, skipn_app, skipn_all, Nat.sub_diag; reflexivity).
  rewrite firstn_all in Hs.
  eexists. split; [exact Hs|]. cbn [returned dst_after write written].
  split; [exact HL|]. split; [reflexivity|].
  rewrite <- HL. unfold len. rewrite Nat2Z.id, firstn_all. reflexivity.
Qed.

Lemma strip_header_round_trip_witness :
  exists out,
    strip_header (mkNamespace sample_file sample_output false) = Ok out /\
    returned out = 4 /\ written (dst_after out) = sample_payload.
Proof.
  destruct (strip_header_round_trip sample_header sample_payload sample_output
              (layout_header sample_header) 4471 (mkFile (content sample_file) 17))
    as (out & Hs & Hr & Hw & _); try reflexivity.
  exists out. repeat split; assumption.
Defined.

(** C5: a header whose length field is [L], followed by [M < L] payload
    bytes only: the run does not fail, returns [M] and has copied the [M]
    bytes. *)
Theorem strip_header_short_source (hb payload : bytes) (dst : ofile)
  (header : Header) (crc : Z) (f' : file) :
  List.length hb = 17%nat ->
  parse_info (mkFile (hb ++ payload) 0) = Ok (header, crc, f') ->
  len payload < length header ->
  exists out,
    strip_header (mkNamespace (mkFile (hb ++ payload) 0) dst false) = Ok out /\
    returned out = len payload /\
    returned out <> length header /\
    written (dst_after out) = (written dst ++ payload)%list.
Proof.
  intros Hhb Hp HL.
  set (args := mkNamespace (mkFile (hb ++ payload) 0) dst false).
  assert (H : (17 <= remaining (mkFile (hb ++ payload) 0))%nat).
  { unfold remaining. cbn [content pos]. rewrite length_app. lia. }
  pose proof (strip_header_ok args H) as Hs. cbv zeta in Hs.
  change (hobeta_file args) with (mkFile (hb ++ payload) 0) in Hs.
  assert (Hh : layout_header (firstn 17 (rest (mkFile (hb ++ payload) 0)))
               = header)
    by (rewrite (parse_info_ok _ H) in Hp; congruence).
  rewrite Hh in Hs. unfold budget in Hs.
  change (ignore_header args) with false in Hs.
  change (output_file args) with dst in Hs.
  cbn [content] in Hs.
  rewrite length_app, Hhb in Hs.
  replace (Nat.min (Z.to_nat (length header)) (17 + List.length payload - 17))
    with (List.length payload) in Hs by (unfold len in HL; lia).
  replace (skipn 17 (hb ++ payload)) with payload in Hs
    by (rewrite <- Hhb, skipn_app, skipn_all, Nat.sub_diag; reflexivity).
  rewrite firstn_all in Hs.
  eexists. split; [exact Hs|]. cbn [returned dst_after write written].
  unfold len in *. repeat split; try reflexivity. lia.
Qed.

Lemma strip_header_short_source_witness :
  exists out,
    strip_header
      (mkNamespace (mkFile (sample_header ++ [x0a; x0b]) 0) sample_output false)
    = Ok out /\
    returned out = 2 /\ written (dst_after out) = [x0a; x0b].
Proof.
  destruct (strip_header_short_source sample_header [x0a; x0b] sample_output
              (layout_header sample_header) 4471
              (mkFile (sample_header ++ [x0a; x0b]) 17))
    as (out & Hs & Hr & _ & Hw); try reflexivity.
  exists out. repeat split; assumption.
Defined.

(** C9: whatever the read position of the source at the start of the run,
    the copy loop starts on the source repositioned at the absolute offset
    17, so that what reaches the sink is a run of bytes that starts at
    offset 17: none of the 17 bytes in front of it is written.  (A source
    with fewer than 17 bytes behind its cursor makes the run raise before
    the sink is touched.) *)
Theorem strip_header_skips_header (parsed_args : Namespace) :
  let f := hobeta_file parsed_args in
  ((remaining f < 17)%nat -> strip_header parsed_args = Raise struct_error) /\
  ((17 <= remaining f)%nat ->
   exists header crc f' out left k,
     parse_info f = Ok (header, crc, f') /\
     strip_header parsed_args = Ok out /\
     copy_loop (mkFile (content f) 17) (output_file parsed_args)
       (budget (ignore_header parsed_args) (len (content f)) header)
     = (src_after out, dst_after out, left) /\
     written (dst_after out)
     = (written (output_file parsed_args)
        ++ firstn k (skipn 17 (content f)))%list /\
     pos (src_after out) = (17 + k)%nat).
Proof.
  intros f. split.
  - intros H. unfold strip_header. fold f.
    now rewrite (parse_info_short f H).
  - intros H.
    pose proof (strip_header_ok parsed_args H) as Hs.
    pose proof (loop_from_header_size parsed_args H) as Hl.
    cbv zeta in Hs, Hl. fold f in Hs, Hl.
    do 6 eexists. split; [apply parse_info_ok; exact H|].
    split; [exact Hs|]. cbn [src_after dst_after write written pos].
    split; [exact Hl|]. split; reflexivity.
Qed.

Lemma strip_header_skips_header_witness :
  exists out k,
    strip_header
      (mkNamespace (mkFile (sample_header ++ sample_header) 3) sample_output
         false)
    = Ok out /\
    written (dst_after out)
    = firstn k (skipn 17 (sample_header ++ sample_header)) /\
    pos (src_after out) = (17 + k)%nat.
Proof.
  destruct (strip_header_skips_header
              (mkNamespace (mkFile (sample_header ++ sample_header) 3)
                 sample_output false)) as [_ H].
  destruct H as (header & crc & f' & out & left & k & _ & Hs & _ & Hw & Hp).
  - vm_compute. lia.
  - exists out, k. repeat split; assumption.
Defined.

(** C10: in every run the bytes appended to the sink are as many as the
    returned count, and the count is at most the budget; with a budget of
    zero (a length field of 0 without [ignore_header], a source of exactly
    17 bytes with it) the run returns 0 and leaves the sink as it was. *)
Theorem strip_header_count (parsed_args : Namespace) :
  let f := hobeta_file parsed_args in
  (17 <= remaining f)%nat ->
  exists header crc f' out data,
    parse_info f = Ok (header, crc, f') /\
    strip_header parsed_args = Ok out /\
    written (dst_after out) = (written (output_file parsed_args) ++ data)%list /\
    len data = returned out /\
    0 <= returned out
      <= budget (ignore_header parsed_args) (len (content f)) header /\
    (budget (ignore_header parsed_args) (len (content f)) header = 0 ->
     returned out = 0 /\ dst_after out = output_file parsed_args) /\
    (ignore_header parsed_args = false -> length header = 0 ->
     returned out = 0 /\ dst_after out = output_file parsed_args) /\
    (ignore_header parsed_args = true -> len (content f) = 17 ->
     returned out = 0 /\ dst_after out = output_file parsed_args).
Proof.
  intros f H.
  pose proof (strip_header_ok parsed_args H) as Hs.
  pose proof (budget_nonneg parsed_args H) as Hb.
  pose proof (length_copied_bytes parsed_args) as Hk.
  cbv zeta in Hs, Hb, Hk. fold f in Hs, Hb, Hk.
  set (header := layout_header (firstn 17 (rest f))) in *.
  set (b := budget (ignore_header parsed_args) (len (content f)) header) in *.
  set (k := Nat.min (Z.to_nat b) (List.length (content f) - 17)) in *.
  assert (Hzero : b = 0 ->
                  Z.of_nat k = 0 /\
                  write (firstn k (skipn 17 (content f)))
                    (output_file parsed_args)
                  = output_file parsed_args).
  { intros Hb0. assert (Hk0 : k = 0%nat) by (subst k; lia).
    rewrite Hk0. cbn [firstn]. now rewrite write_nil. }
  exists header. do 3 eexists. exists (firstn k (skipn 17 (content f))).
  split; [apply parse_info_ok; exact H|].
  split; [exact Hs|]. cbn [src_after dst_after returned write written].
  split; [reflexivity|]. split; [unfold len; now rewrite Hk|].
  split; [subst k; lia|]. split; [exact Hzero|]. split.
  - intros Hi Hl. apply Hzero. subst b. unfold budget. now rewrite Hi.
  - intros Hi Hl. apply Hzero. subst b. unfold budget. rewrite Hi. lia.
Qed.

Lemma strip_header_count_witness :
  exists out data,
    strip_header (mkNamespace (mkFile sample_header 0) sample_output true)
    = Ok out /\
    written (dst_after out) = data /\ len data = returned out /\
    returned out = 0.
Proof.
  assert (H : (17 <= remaining (mkFile sample_header 0))%nat)
    by (vm_compute; lia).
  destruct (strip_header_count
              (mkNamespace (mkFile sample_header 0) sample_output true) H)
    as (header & crc & f' & out & data & _ & Hs & Hw & Hl & _ & _ & _ & Hz).
  exists out, data. repeat split; try assumption.
  apply Hz; reflexivity.
Defined.

(** ** The checksum mismatch *)

Lemma string_app_assoc (a b c : string) :
  ((a ++ b) ++ c = a ++ (b ++ c))%string.
Proof. induction a as [|ch a IH]; cbn; [reflexivity | now rewrite IH]. Qed.

(** C8: the code against the claim, on a header whose stored checksum (0)
    differs from the computed one (48418) and whose file name starts with
    the byte 0xff.  [strip_header] runs to completion behind its warning
    line, as the claim has it, but [show_info] raises [UnicodeDecodeError]
    out of [header.filename.decode("ascii")] and displays nothing.  The
    exception comes with the file name, not with the mismatch: the same
    header with the right checksum bytes raises as well, and a header with
    an ASCII name and a wrong stored checksum is displayed. *)
Theorem show_info_raises_on_foreign_name :
  (exists header crc f',
      parse_info (mkFile foreign_header 0) = Ok (header, crc, f') /\
      check_sum header = 0 /\ crc = 48418 /\ check_sum header <> crc) /\
  show_info (mkNamespace (mkFile foreign_header 0) sample_output false)
  = Raise UnicodeDecodeError /\
  (exists out,
      strip_header (mkNamespace (mkFile foreign_header 0) sample_output false)
      = Ok out /\
      printed out
      = ["WARNING: wrong checksum in the header.";
         "Created file out.bin, 0 bytes copied."]%string) /\
  (exists header crc f',
      parse_info (mkFile resealed_foreign_header 0) = Ok (header, crc, f') /\
      check_sum header = crc) /\
  show_info (mkNamespace (mkFile resealed_foreign_header 0) sample_output false)
  = Raise UnicodeDecodeError /\
  (exists header crc f' text,
      parse_info (mkFile wrong_checksum_header 0) = Ok (header, crc, f') /\
      check_sum header <> crc /\
      show_info (mkNamespace (mkFile wrong_checksum_header 0) sample_output
                   false)
      = Ok text).
Proof.
  split; [|split; [|split; [|split; [|split]]]].
  - exists (layout_header foreign_header), 48418, (mkFile foreign_header 17).
    split; [reflexivity|]. split; [reflexivity|]. split; [reflexivity|].
    vm_compute. discriminate.
  - reflexivity.
  - eexists. split; reflexivity.
  - exists (layout_header resealed_foreign_header), 48418,
      (mkFile resealed_foreign_header 17).
    split; reflexivity.
  - reflexivity.
  - exists (layout_header wrong_checksum_header), 4471,
      (mkFile wrong_checksum_header 17).
    eexists. split; [reflexivity|]. split; [vm_compute; discriminate|].
    reflexivity.
Qed.

(** * Further properties *)

(** ** The checksum *)

Lemma byte_val_inj (a b : byte) : byte_val a = byte_val b -> a = b.
Proof.
  unfold byte_val. intros H. apply N2Z.inj in H.
  pose proof (Byte.of_to_N a) as Ha. rewrite H, Byte.of_to_N in Ha.
  congruence.
Qed.

Lemma calc_checksum_range (data : bytes) : 0 <= calc_checksum data < 65536.
Proof. rewrite calc_checksum_closed. apply Z.mod_pos_bound. lia. Qed.

(** X1: on the 15 bytes the header checksum is taken of, [calc_checksum]
    is 257 times the sum of the bytes, plus 105, modulo 65536. *)
Theorem calc_checksum_header_formula (data : bytes) :
  List.length data = 15%nat ->
  calc_checksum data = (257 * byte_sum data + 105) mod 65536.
Proof. intros H. rewrite calc_checksum_closed, H. reflexivity. Qed.

Lemma calc_checksum_header_formula_witness :
  calc_checksum (firstn 15 sample_header)
  = (257 * byte_sum (firstn 15 sample_header) + 105) mod 65536.
Proof. apply calc_checksum_header_formula. reflexivity. Defined.

(** X2: any rearrangement of the bytes of an input has the checksum of the
    input. *)
Theorem calc_checksum_rearranged (data data' : bytes) :
  Permutation data data' -> calc_checksum data = calc_checksum data'.
Proof. apply calc_checksum_Permutation. Qed.

Lemma calc_checksum_rearranged_witness :
  calc_checksum (rev sample_header) = calc_checksum sample_header.
Proof.
  apply calc_checksum_rearranged. apply Permutation_sym, Permutation_rev.
Defined.

(** X3: replacing one byte of an input by a different byte always changes
    the checksum. *)
Theorem calc_checksum_detects_byte (data : bytes) (i : nat) (b : byte) :
  (i < List.length data)%nat -> b <> nth i data x00 ->
  calc_checksum (update i b data) <> calc_checksum data.
Proof.
  intros Hi Hb He. rewrite !calc_checksum_closed, length_update in He.
  rewrite byte_sum_update in He by exact Hi.
  assert (Hd : byte_val b <> byte_val (nth i data x00))
    by (intros E; apply Hb, byte_val_inj, E).
  pose proof (byte_val_range b). pose proof (byte_val_range (nth i data x00)).
  set (s := 257 * byte_sum data + index_sum 0 (List.length data)) in *.
  replace (257 * (byte_sum data - byte_val (nth i data x00) + byte_val b)
           + index_sum 0 (List.length data))
    with (s + 257 * (byte_val b - byte_val (nth i data x00))) in He by (subst s; lia).
  rewrite (Z.mod_eq s 65536), (Z.mod_eq (s + _) 65536) in He by lia.
  lia.
Qed.

Lemma calc_checksum_detects_byte_witness :
  calc_checksum (update 3 xff sample_header) <> calc_checksum sample_header.
Proof.
  apply calc_checksum_detects_byte; [vm_compute; lia | discriminate].
Defined.

(** ** Decoding *)

(** X4: the header [parse_info] returns has a file name of 8 bytes, one-byte
    fields below 256 and two-byte fields below 65536, and the checksum
    returned with it is below 65536 as well. *)
Theorem parse_info_ranges (f : file) (header : Header) (crc : Z) (f' : file) :
  parse_info f = Ok (header, crc, f') ->
  List.length (filename header) = 8%nat /\
  0 <= filetype header < 256 /\
  0 <= start header < 65536 /\
  0 <= length header < 65536 /\
  0 <= first_sector header < 256 /\
  0 <= occupied_sectors header < 256 /\
  0 <= check_sum header < 65536 /\
  0 <= crc < 65536.
Proof.
  intros Hp.
  destruct (Nat.le_gt_cases 17 (remaining f)) as [H|Hlt];
    [|rewrite (parse_info_short f Hlt) in Hp; discriminate Hp].
  rewrite (parse_info_ok f H) in Hp.
  assert (Hh : layout_header (firstn 17 (rest f)) = header) by congruence.
  assert (Hc : calc_checksum (firstn 15 (firstn 17 (rest f))) = crc)
    by congruence.
  subst header crc. unfold layout_header.
  cbn [filename filetype start length first_sector occupied_sectors check_sum].
  set (data := firstn 17 (rest f)).
  pose proof (fun n => byte_val_range (nth n data x00)) as R.
  pose proof (R 8%nat). pose proof (R 9%nat). pose proof (R 10%nat).
  pose proof (R 11%nat). pose proof (R 12%nat). pose proof (R 13%nat).
  pose proof (R 14%nat). pose proof (R 15%nat). pose proof (R 16%nat).
  split.
  - subst data. rewrite firstn_firstn, length_firstn, length_rest. lia.
  - repeat split; try lia; apply calc_checksum_range.
Qed.

Lemma parse_info_ranges_witness :
  0 <= length (layout_header sample_header) < 65536.
Proof.
  destruct (parse_info_ranges sample_file (layout_header sample_header) 4471
              (mkFile (content sample_file) 17) eq_refl)
    as (_ & _ & _ & H & _).
  exact H.
Defined.

(** X5: the stored checksum agrees with the computed one exactly when the
    bytes 15 and 16 of the header are the low and the high byte of the
    computed checksum. *)
Theorem stored_checksum_matches (f : file) (header : Header) (crc : Z)
  (f' : file) :
  parse_info f = Ok (header, crc, f') ->
  let data := firstn 17 (rest f) in
  check_sum header = crc <->
  byte_val (nth 15 data x00) = crc mod 256 /\
  byte_val (nth 16 data x00) = crc / 256.
Proof.
  intros Hp data.
  destruct (Nat.le_gt_cases 17 (remaining f)) as [H|Hlt];
    [|rewrite (parse_info_short f Hlt) in Hp; discriminate Hp].
  rewrite (parse_info_ok f H) in Hp.
  assert (Hh : layout_header data = header) by (subst data; congruence).
  subst header. unfold layout_header. cbn [check_sum].
  pose proof (byte_val_range (nth 15 data x00)).
  pose proof (byte_val_range (nth 16 data x00)).
  pose proof (Z.div_mod crc 256 ltac:(lia)).
  pose proof (Z.mod_pos_bound crc 256 ltac:(lia)).
  split.
  - intros E. rewrite <- E in *. lia.
  - intros [E1 E2]. lia.
Qed.

Lemma stored_checksum_matches_witness :
  check_sum (layout_header sample_header) = 4471 <->
  byte_val (nth 15 (firstn 17 (rest sample_file)) x00) = 4471 mod 256 /\
  byte_val (nth 16 (firstn 17 (rest sample_file)) x00) = 4471 / 256.
Proof.
  exact (stored_checksum_matches sample_file (layout_header sample_header) 4471
           (mkFile (content sample_file) 17) eq_refl).
Defined.

(** ** The info display *)

Lemma filename_of_layout (f : file) :
  filename (layout_header (firstn 17 (rest f))) = firstn 8 (rest f).
Proof.
  unfold layout_header. cbn [filename]. now rewrite firstn_firstn.
Qed.

(** X6: [show_info] raises [struct.error] on a source with fewer than 17
    bytes to read and [UnicodeDecodeError] on a header whose 8 file name
    bytes are not all ASCII; in every other case it prints its text. *)
Theorem show_info_outcome (parsed_args : Namespace) :
  let f := hobeta_file parsed_args in
  ((remaining f < 17)%nat -> show_info parsed_args = Raise struct_error) /\
  ((17 <= remaining f)%nat -> isascii (firstn 8 (rest f)) = false ->
   show_info parsed_args = Raise UnicodeDecodeError) /\
  ((17 <= remaining f)%nat -> isascii (firstn 8 (rest f)) = true ->
   exists text, show_info parsed_args = Ok text).
Proof.
  intros f. unfold show_info. fold f. repeat split.
  - intros H. now rewrite (parse_info_short f H).
  - intros H Ha. rewrite (parse_info_ok f H). cbn [bind].
    unfold decode_ascii. now rewrite filename_of_layout, Ha.
  - intros H Ha. rewrite (parse_info_ok f H). cbn [bind].
    unfold decode_ascii. rewrite filename_of_layout, Ha. cbn [bind].
    eexists. reflexivity.
Qed.

Lemma show_info_outcome_witness :
  show_info (mkNamespace (mkFile (firstn 5 sample_header) 0) sample_output false)
  = Raise struct_error /\
  show_info (mkNamespace (mkFile foreign_header 0) sample_output false)
  = Raise UnicodeDecodeError /\
  exists text,
    show_info (mkNamespace sample_file sample_output false) = Ok text.
Proof.
  split; [|split].
  - apply (show_info_outcome
             (mkNamespace (mkFile (firstn 5 sample_header) 0) sample_output false)).
    vm_compute. lia.
  - apply (show_info_outcome
             (mkNamespace (mkFile foreign_header 0) sample_output false));
      [vm_compute; lia | reflexivity].
  - apply (show_info_outcome (mkNamespace sample_file sample_output false));
      [vm_compute; lia | reflexivity].
Defined.

Lemma has_tab_app (a b : string) :
  has_tab (a ++ b) = has_tab a || has_tab b.
Proof.
  induction a as [|ch a IH]; cbn [append has_tab]; [reflexivity|].
  now rewrite IH, orb_assoc.
Qed.

Lemma has_tab_spaces (n : nat) : has_tab (spaces n) = false.
Proof. induction n as [|n IH]; [reflexivity | exact IH]. Qed.

Lemma expandtabs_from_no_tab (tabsize line_pos : nat) (s : string) :
  (0 < tabsize)%nat -> has_tab (expandtabs_from tabsize line_pos s) = false.
Proof.
  intros Ht. revert line_pos.
  induction s as [|ch s IH]; intros line_pos; [reflexivity|].
  cbn [expandtabs_from]. destruct (Ascii.eqb ch TAB) eqn:E.
  - destruct (Nat.ltb_spec 0 tabsize) as [_|?]; [|lia].
    now rewrite has_tab_app, has_tab_spaces, IH.
  - destruct (Ascii.eqb ch LF || Ascii.eqb ch CR);
      cbn [has_tab]; now rewrite E, IH.
Qed.

(** X7: the text [show_info] prints never holds a tab character, whatever
    bytes the header is made of. *)
Theorem show_info_no_tab (parsed_args : Namespace) (text : string) :
  show_info parsed_args = Ok text -> has_tab text = false.
Proof.
  unfold show_info. intros H.
  destruct (parse_info (hobeta_file parsed_args)) as [[[header crc] f']|e];
    cbn [bind] in H; [|discriminate H].
  destruct (decode_ascii (filename header)) as [fname|e];
    cbn [bind] in H; [|discriminate H].
  injection H as <-. unfold expandtabs. apply expandtabs_from_no_tab. lia.
Qed.

Lemma show_info_no_tab_witness :
  exists text,
    show_info (mkNamespace sample_file sample_output false) = Ok text /\
    has_tab text = false.
Proof.
  eexists. split; [reflexivity|].
  apply (show_info_no_tab (mkNamespace sample_file sample_output false)).
  reflexivity.
Defined.

Lemma plain_app (a b : string) : plain (a ++ b) = plain a && plain b.
Proof.
  induction a as [|ch a IH]; cbn [append plain]; [reflexivity|].
  now rewrite IH, andb_assoc.
Qed.

Lemma plain_uint (d : Decimal.uint) : plain (NilEmpty.string_of_uint d) = true.
Proof. induction d; cbn [NilEmpty.string_of_uint]; trivial. Qed.

Lemma plain_str (n : Z) : plain (str n) = true.
Proof.
  assert (H : forall d, plain (NilZero.string_of_uint d) = true).
  { intros d. unfold NilZero.string_of_uint.
    destruct d; solve [reflexivity | apply plain_uint]. }
  unfold str, NilZero.string_of_int. destruct (Z.to_int n) as [d|d]; apply H.
Qed.

Lemma string_app_nil_r (s : string) : (s ++ "")%string = s.
Proof. induction s as [|ch s IH]; cbn; [reflexivity | now rewrite IH]. Qed.

Lemma expandtabs_plain (tabsize line_pos : nat) (s r : string) :
  plain s = true ->
  expandtabs_from tabsize line_pos (s ++ r)
  = (s ++ expandtabs_from tabsize (line_pos + String.length s) r)%string.
Proof.
  revert line_pos. induction s as [|ch s IH]; intros line_pos Hs.
  - cbn [append String.length]. now rewrite Nat.add_0_r.
  - cbn [plain] in Hs. apply andb_prop in Hs as [Hs Hp].
    apply andb_prop in Hs as [Ht Hn].
    apply negb_true_iff in Ht, Hn.
    cbn [append expandtabs_from String.length]. rewrite Ht, Hn, IH by exact Hp.
    do 3 f_equal. lia.
Qed.

Lemma expandtabs_tab (tabsize line_pos : nat) (s : string) :
  (0 < tabsize)%nat ->
  expandtabs_from tabsize line_pos (String TAB s)
  = (spaces (tabsize - line_pos mod tabsize)
     ++ expandtabs_from tabsize
          (line_pos + (tabsize - line_pos mod tabsize)) s)%string.
Proof.
  intros Ht. cbn [expandtabs_from]. change (Ascii.eqb TAB TAB) with true.
  cbv iota. destruct (Nat.ltb_spec 0 tabsize) as [_|?]; [reflexivity|lia].
Qed.

(** One line of the display: the label, padding up to column 20, the
    value, and the line feed that sets the column back to 0. *)
Lemma expandtabs_line (label value more : string) :
  plain label = true -> plain value = true ->
  (String.length label < 20)%nat ->
  expandtabs_from 20 0
    (label ++ String TAB "" ++ value ++ String LF "" ++ more)
  = (label ++ spaces (20 - String.length label) ++ value
     ++ String LF (expandtabs_from 20 0 more))%string.
Proof.
  intros Hl Hv Hlen. rewrite expandtabs_plain by exact Hl.
  change (String TAB "" ++ value ++ String LF "" ++ more)%string
    with (String TAB (value ++ String LF more)).
  rewrite expandtabs_tab by lia. cbn [Nat.add].
  rewrite Nat.mod_small by exact Hlen.
  rewrite expandtabs_plain by exact Hv. reflexivity.
Qed.

Lemma expandtabs_last_line (label value : string) :
  plain label = true -> plain value = true ->
  (String.length label < 20)%nat ->
  expandtabs_from 20 0 (label ++ String TAB "" ++ value)
  = (label ++ spaces (20 - String.length label) ++ value)%string.
Proof.
  intros Hl Hv Hlen. rewrite expandtabs_plain by exact Hl.
  change (String TAB "" ++ value)%string with (String TAB value).
  rewrite expandtabs_tab by lia. cbn [Nat.add].
  rewrite Nat.mod_small by exact Hlen.
  rewrite <- (string_app_nil_r value) at 1.
  rewrite expandtabs_plain by exact Hv. cbn [expandtabs_from].
  now rewrite string_app_nil_r.
Qed.

(** X8: the text [show_info] prints for a header whose file name is ASCII,
    when neither the name nor the type character holds a tab, a line feed
    or a carriage return: seven lines, each value in column 20, the start
    labelled as a program length for the type 'B' and as an address for
    the others, and the stored checksum followed by its verdict. *)
Theorem show_info_text (parsed_args : Namespace) (header : Header) (crc : Z)
  (f' : file) :
  parse_info (hobeta_file parsed_args) = Ok (header, crc, f') ->
  isascii (filename header) = true ->
  plain (chars (filename header)) = true ->
  plain (chr (filetype header)) = true ->
  show_info parsed_args
  = Ok ("File name:          " ++ chars (filename header) ++ String LF "" ++
        "Extension:          " ++ chr (filetype header) ++ String LF "" ++
        (if (filetype header =? 66)%Z
         then "Prg LEN:            " else "Place at:           ") ++
        str (start header) ++ String LF "" ++
        "File size:          " ++ str (length header) ++ String LF "" ++
        "First sector:       " ++ str (first_sector header) ++ String LF "" ++
        "Occupied sectors:   " ++ str (occupied_sectors header) ++ String LF "" ++
        "Check sum:          " ++ str (check_sum header) ++ " " ++
        (if (crc =? check_sum header)%Z
         then "(OK)" else "(WRONG! Should be " ++ str crc ++ ")"))%string.
Proof.
  intros Hp Ha Hn Ht. unfold show_info. rewrite Hp. cbn [bind].
  unfold decode_ascii. rewrite Ha. cbn [bind]. fold (chars (filename header)).
  unfold expandtabs. f_equal.
  rewrite expandtabs_line by (try exact Hn; try reflexivity; cbn; lia).
  rewrite expandtabs_line by (try exact Ht; try reflexivity; cbn; lia).
  assert (Hstart :
    forall more,
      expandtabs_from 20 0
        ((if (filetype header =? 66)%Z
          then "Prg LEN:" ++ String TAB "" else "Place at:" ++ String TAB "")
         ++ str (start header) ++ String LF "" ++ more)
      = ((if (filetype header =? 66)%Z
          then "Prg LEN:            " else "Place at:           ")
         ++ str (start header) ++ String LF (expandtabs_from 20 0 more))%string).
  { intros more. destruct (filetype header =? 66)%Z;
      rewrite string_app_assoc;
      rewrite expandtabs_line
        by (try apply plain_str; try reflexivity; cbn; lia);
      reflexivity. }
  rewrite Hstart.
  do 3 rewrite expandtabs_line
    by (try apply plain_str; try reflexivity; cbn; lia).
  rewrite expandtabs_last_line; [reflexivity | reflexivity | | cbn; lia].
  rewrite !plain_app, plain_str.
  destruct (crc =? check_sum header)%Z; [reflexivity|].
  now rewrite !plain_app, plain_str.
Qed.

Lemma show_info_text_witness :
  show_info (mkNamespace sample_file sample_output false)
  = Ok ("File name:          TESTFILE" ++ String LF "" ++
        "Extension:          B" ++ String LF "" ++
        "Prg LEN:            100" ++ String LF "" ++
        "File size:          4" ++ String LF "" ++
        "First sector:       3" ++ String LF "" ++
        "Occupied sectors:   1" ++ String LF "" ++
        "Check sum:          4471 (OK)")%string.
Proof.
  exact (show_info_text (mkNamespace sample_file sample_output false)
           (layout_header sample_header) 4471
           (mkFile (content sample_file) 17)
           eq_refl eq_refl eq_refl eq_refl).
Defined.

(** ** The copy loop and the stripper *)

(** X9: started with a budget [n] that is not negative, the copy loop
    transfers the [min n (bytes behind the cursor)] bytes that follow the
    cursor, in however many chunks, moves the cursor past them and leaves
    the unused part of the budget in [length]. *)
Theorem copy_loop_transfers (src_file : file) (dst_file : ofile) (n : Z) :
  0 <= n ->
  let k := Nat.min (Z.to_nat n) (remaining src_file) in
  copy_loop src_file dst_file n
  = (mkFile (content src_file) (pos src_file + k),
     mkOfile (name dst_file) (written dst_file ++ firstn k (rest src_file)),
     n - Z.of_nat k).
Proof. intros Hn k. now rewrite copy_loop_spec by exact Hn. Qed.

Lemma copy_loop_transfers_witness :
  copy_loop (mkFile sample_header 15) sample_output 5
  = (mkFile sample_header 17, mkOfile "out.bin" [x77; x11], 3).
Proof. apply (copy_loop_transfers (mkFile sample_header 15)). lia. Defined.

(** X10: a run on a source with 17 bytes or more behind its cursor returns
    the smaller of the budget and the number of bytes behind offset 17,
    appends that many bytes from offset 17 on to the sink, leaves the
    cursor behind the last byte copied, and changes neither the bytes of the
    source nor the name of the sink. *)
Theorem strip_header_exact (parsed_args : Namespace) :
  let f := hobeta_file parsed_args in
  (17 <= remaining f)%nat ->
  exists header crc f' out,
    parse_info f = Ok (header, crc, f') /\
    strip_header parsed_args = Ok out /\
    returned out
    = Z.min (budget (ignore_header parsed_args) (len (content f)) header)
        (len (content f) - 17) /\
    written (dst_after out)
    = (written (output_file parsed_args)
       ++ firstn (Z.to_nat (returned out)) (skipn 17 (content f)))%list /\
    src_after out = mkFile (content f) (17 + Z.to_nat (returned out)) /\
    name (dst_after out) = name (output_file parsed_args).
Proof.
  intros f H.
  pose proof (strip_header_ok parsed_args H) as Hs.
  pose proof (budget_nonneg parsed_args H) as Hb.
  cbv zeta in Hs, Hb. fold f in Hs, Hb.
  assert (Hsize : (17 <= List.length (content f))%nat)
    by (unfold remaining in H; lia).
  do 4 eexists. split; [apply parse_info_ok; exact H|].
  split; [exact Hs|]. cbn [src_after dst_after returned write written name].
  rewrite Nat2Z.id. repeat split. unfold len in *. lia.
Qed.

Lemma strip_header_exact_witness :
  exists out,
    strip_header (mkNamespace sample_file sample_output false) = Ok out /\
    src_after out = mkFile (content sample_file) (17 + Z.to_nat (returned out)).
Proof.
  assert (H : (17 <= remaining sample_file)%nat) by (vm_compute; lia).
  destruct (strip_header_exact (mkNamespace sample_file sample_output false) H)
    as (header & crc & f' & out & _ & Hs & _ & _ & Hsrc & _).
  exists out. split; assumption.
Defined.

(** X11: a header whose length field is [L], followed by [L] payload bytes
    or more (a file padded to the sector size): without [ignore_header]
    the run returns [L] and appends the first [L] payload bytes; the
    padding behind them is not copied. *)
Theorem strip_header_truncates (hb payload : bytes) (dst : ofile)
  (header : Header) (crc : Z) (f' : file) :
  List.length hb = 17%nat ->
  parse_info (mkFile (hb ++ payload) 0) = Ok (header, crc, f') ->
  length header <= len payload ->
  exists out,
    strip_header (mkNamespace (mkFile (hb ++ payload) 0) dst false) = Ok out /\
    returned out = length header /\
    written (dst_after out)
    = (written dst ++ firstn (Z.to_nat (length header)) payload)%list.
Proof.
  intros Hhb Hp HL.
  set (args := mkNamespace (mkFile (hb ++ payload) 0) dst false).
  assert (H : (17 <= remaining (mkFile (hb ++ payload) 0))%nat).
  { unfold remaining. cbn [content pos]. rewrite length_app. lia. }
  pose proof (strip_header_ok args H) as Hs. cbv zeta in Hs.
  change (hobeta_file args) with (mkFile (hb ++ payload) 0) in Hs.
  assert (Hh : layout_header (firstn 17 (rest (mkFile (hb ++ payload) 0)))
               = header)
    by (rewrite (parse_info_ok _ H) in Hp; congruence).
  rewrite Hh in Hs. unfold budget in Hs.
  change (ignore_header args) with false in Hs.
  change (output_file args) with dst in Hs.
  cbn [content] in Hs.
  pose proof (layout_length_nonneg
                (firstn 17 (rest (mkFile (hb ++ payload) 0)))) as Hpos.
  rewrite Hh in Hpos.
  rewrite length_app, Hhb in Hs.
  replace (Nat.min (Z.to_nat (length header)) (17 + List.length payload - 17))
    with (Z.to_nat (length header)) in Hs by (unfold len in HL; lia).
  replace (skipn 17 (hb ++ payload)) with payload in Hs
    by (rewrite <- Hhb, skipn_app, skipn_all, Nat.sub_diag; reflexivity).
  eexists. split; [exact Hs|]. cbn [returned dst_after write written].
  split; [lia | reflexivity].
Qed.

Lemma strip_header_truncates_witness :
  exists out,
    strip_header
      (mkNamespace (mkFile (sample_header ++ sample_payload ++ [x00; x00]) 0)
         sample_output false)
    = Ok out /\
    returned out = 4 /\ written (dst_after out) = sample_payload.
Proof.
  destruct (strip_header_truncates sample_header (sample_payload ++ [x00; x00])
              sample_output (layout_header sample_header) 4471
              (mkFile (sample_header ++ sample_payload ++ [x00; x00]) 17))
    as (out & Hs & Hr & Hw); [reflexivity | reflexivity | vm_compute; discriminate |].
  exists out. repeat split; assumption.
Defined.

Lemma layout_length_range (data : bytes) :
  0 <= length (layout_header data) < 65536.
Proof.
  unfold layout_header. cbn [length].
  pose proof (byte_val_range (nth 11 data x00)).
  pose proof (byte_val_range (nth 12 data x00)). lia.
Qed.

Lemma Ok_inj {A} (a b : A) : Ok a = Ok b -> a = b.
Proof. congruence. Qed.

(** X12: on the same source and sink, what a run without [ignore_header]
    writes is the beginning of what a run with [ignore_header] writes, and
    it returns no more than that run. *)
Theorem strip_header_declared_is_prefix (f : file) (dst : ofile) :
  (17 <= remaining f)%nat ->
  exists out_declared out_all more,
    strip_header (mkNamespace f dst false) = Ok out_declared /\
    strip_header (mkNamespace f dst true) = Ok out_all /\
    written (dst_after out_all)
    = (written (dst_after out_declared) ++ more)%list /\
    returned out_declared <= returned out_all.
Proof.
  intros H.
  pose proof (strip_header_ok (mkNamespace f dst false) H) as Hd.
  pose proof (strip_header_ok (mkNamespace f dst true) H) as Ha.
  cbv zeta in Hd, Ha. cbn [hobeta_file output_file ignore_header] in Hd, Ha.
  unfold budget in Hd, Ha.
  assert (Hsize : (17 <= List.length (content f))%nat)
    by (unfold remaining in H; lia).
  set (kd := Nat.min (Z.to_nat (length (layout_header (firstn 17 (rest f)))))
               (List.length (content f) - 17)) in *.
  replace (Nat.min (Z.to_nat (len (content f) - 17))
             (List.length (content f) - 17))
    with (List.length (content f) - 17)%nat in Ha by (unfold len; lia).
  rewrite firstn_all2 in Ha by (rewrite length_skipn; lia).
  exists (mkOutcome (mkFile (content f) (17 + kd))
            (write (firstn kd (skipn 17 (content f))) dst)
            (strip_report (layout_header (firstn 17 (rest f)))
               (calc_checksum (firstn 15 (firstn 17 (rest f))))
               (name dst) (Z.of_nat kd))
            (Z.of_nat kd)).
  eexists. exists (skipn kd (skipn 17 (content f))).
  split; [exact Hd|]. split; [exact Ha|].
  cbn [dst_after returned write written]. split.
  - rewrite <- app_assoc, firstn_skipn. reflexivity.
  - subst kd. lia.
Qed.

Lemma strip_header_declared_is_prefix_witness :
  exists out_declared out_all more,
    strip_header
      (mkNamespace (mkFile (sample_header ++ sample_payload ++ [x00; x00]) 0)
         sample_output false) = Ok out_declared /\
    strip_header
      (mkNamespace (mkFile (sample_header ++ sample_payload ++ [x00; x00]) 0)
         sample_output true) = Ok out_all /\
    written (dst_after out_all)
    = (written (dst_after out_declared) ++ more)%list.
Proof.
  destruct (strip_header_declared_is_prefix
              (mkFile (sample_header ++ sample_payload ++ [x00; x00]) 0)
              sample_output)
    as (od & oa & more & Hd & Ha & Hw & _); [vm_compute; lia|].
  exists od, oa, more. repeat split; assumption.
Defined.

(** X13: without [ignore_header] a run never copies more than 65535 bytes,
    however long the source is. *)
Theorem strip_header_declared_cap (parsed_args : Namespace) (out : outcome) :
  ignore_header parsed_args = false ->
  strip_header parsed_args = Ok out ->
  0 <= returned out <= 65535 /\
  len (written (dst_after out))
  <= len (written (output_file parsed_args)) + 65535.
Proof.
  intros Hi Hs.
  destruct (Nat.le_gt_cases 17 (remaining (hobeta_file parsed_args)))
    as [H|Hlt].
  - pose proof (strip_header_ok parsed_args H) as Hk. cbv zeta in Hk.
    rewrite Hk in Hs. apply Ok_inj in Hs. subst out.
    cbn [returned dst_after write written].
    unfold budget. rewrite Hi. cbv iota.
    pose proof (layout_length_range
                  (firstn 17 (rest (hobeta_file parsed_args)))) as Hl.
    unfold len. rewrite length_app, length_firstn. lia.
  - unfold strip_header in Hs. rewrite (parse_info_short _ Hlt) in Hs.
    discriminate Hs.
Qed.

Lemma strip_header_declared_cap_witness :
  exists out,
    strip_header (mkNamespace sample_file sample_output false) = Ok out /\
    0 <= returned out <= 65535.
Proof.
  eexists. split; [reflexivity|].
  apply (proj1 (strip_header_declared_cap
                  (mkNamespace sample_file sample_output false) _
                  eq_refl eq_refl)).
Defined.

(** X14: a run that reads its header prints the warning line exactly when
    the stored checksum differs from the computed one, and then one report
    line, which names the sink and states the count the run returns. *)
Theorem strip_header_prints (parsed_args : Namespace) (header : Header)
  (crc : Z) (f' : file) :
  parse_info (hobeta_file parsed_args) = Ok (header, crc, f') ->
  exists out,
    strip_header parsed_args = Ok out /\
    printed out
    = ((if check_sum header =? crc
        then [] else ["WARNING: wrong checksum in the header."%string])
       ++ [("Created file " ++ name (output_file parsed_args) ++ ", "
            ++ str (returned out) ++ " bytes copied.")%string])%list.
Proof.
  intros Hp.
  assert (H : (17 <= remaining (hobeta_file parsed_args))%nat).
  { destruct (Nat.le_gt_cases 17 (remaining (hobeta_file parsed_args)))
      as [?|Hlt]; [assumption|].
    rewrite (parse_info_short _ Hlt) in Hp. discriminate Hp. }
  pose proof (strip_header_ok parsed_args H) as Hs. cbv zeta in Hs.
  rewrite (parse_info_ok _ H) in Hp.
  assert (Hh : layout_header
                 (firstn 17 (rest (hobeta_file parsed_args))) = header)
    by congruence.
  assert (Hc : calc_checksum
                 (firstn 15 (firstn 17 (rest (hobeta_file parsed_args))))
               = crc) by congruence.
  rewrite Hh, Hc in Hs. eexists. split; [exact Hs|].
  cbn [printed returned]. unfold strip_report.
  destruct (check_sum header =? crc); reflexivity.
Qed.

Lemma strip_header_prints_witness :
  exists out,
    strip_header (mkNamespace sample_file sample_output false) = Ok out /\
    printed out
    = [("Created file out.bin, " ++ str (returned out) ++ " bytes copied.")%string].
Proof.
  exact (strip_header_prints (mkNamespace sample_file sample_output false)
           (layout_header sample_header) 4471
           (mkFile (content sample_file) 17) eq_refl).
Defined.

(** ** Headers and their checksum bytes *)

Lemma byte_val_byte_of (z : Z) : 0 <= z < 256 -> byte_val (byte_of z) = z.
Proof.
  intros Hz. unfold byte_of, byte_val.
  destruct (Byte.of_N (Z.to_N z)) as [b|] eqn:E.
  - apply Byte.to_of_N in E. rewrite E. lia.
  - pose proof (Byte.to_of_N_option_map (Z.to_N z)) as H.
    rewrite E in H. cbn [option_map] in H.
    destruct (N.leb_spec (Z.to_N z) 255); [discriminate H | lia].
Qed.

(** X16: [show_info] reads the 17 header bytes only: two sources with the
    same 17 bytes behind their cursors get the same result, whatever
    follows these bytes. *)
Theorem show_info_header_only (args args' : Namespace) :
  (17 <= remaining (hobeta_file args))%nat ->
  (17 <= remaining (hobeta_file args'))%nat ->
  firstn 17 (rest (hobeta_file args)) = firstn 17 (rest (hobeta_file args')) ->
  show_info args = show_info args'.
Proof.
  intros H H' E. unfold show_info.
  rewrite (parse_info_ok _ H), (parse_info_ok _ H'), E. reflexivity.
Qed.

Lemma show_info_header_only_witness :
  show_info (mkNamespace sample_file sample_output false)
  = show_info (mkNamespace (mkFile (x00 :: sample_header) 1) sample_output true).
Proof.
  apply show_info_header_only; [vm_compute; lia | vm_compute; lia | reflexivity].
Defined.

(** X17: any 15 bytes followed by the low and the high byte of their
    checksum make a header that verifies: the stored checksum that
    [parse_info] decodes is the checksum it computes, and [strip_header]
    prints no warning. *)
Theorem sealed_header_verifies (prefix payload : bytes) (dst : ofile)
  (ignore : bool) :
  List.length prefix = 15%nat ->
  let crc := calc_checksum prefix in
  let f := mkFile (prefix ++ [byte_of (crc mod 256); byte_of (crc / 256)]
                     ++ payload) 0 in
  exists header out,
    parse_info f = Ok (header, crc, mkFile (content f) 17) /\
    check_sum header = crc /\
    strip_header (mkNamespace f dst ignore) = Ok out /\
    printed out
    = [("Created file " ++ name dst ++ ", " ++ str (returned out)
        ++ " bytes copied.")%string].
Proof.
  intros Hlen crc f.
  set (lo := byte_of (crc mod 256)). set (hi := byte_of (crc / 256)).
  assert (Hrest : rest f = (prefix ++ [lo; hi] ++ payload)%list) by reflexivity.
  assert (H : (17 <= remaining f)%nat).
  { rewrite <- length_rest, Hrest, !length_app. cbn [List.length]. lia. }
  assert (Hdata : firstn 17 (rest f) = (prefix ++ [lo; hi])%list).
  { rewrite Hrest.
    replace (prefix ++ [lo; hi] ++ payload)%list
      with ((prefix ++ [lo; hi]) ++ payload)%list by now rewrite <- app_assoc.
    rewrite firstn_app, firstn_all2 by (rewrite length_app; cbn; lia).
    rewrite length_app, Hlen. cbn [List.length Nat.add Nat.sub firstn].
    now rewrite app_nil_r. }
  assert (Hcrc : calc_checksum (firstn 15 (firstn 17 (rest f))) = crc).
  { rewrite Hdata, firstn_app, Hlen, Nat.sub_diag, firstn_O, app_nil_r.
    now rewrite firstn_all2 by lia. }
  pose proof (calc_checksum_range prefix) as Hr. fold crc in Hr.
  assert (Hsum : check_sum (layout_header (firstn 17 (rest f))) = crc).
  { rewrite Hdata. unfold layout_header. cbn [check_sum].
    rewrite !app_nth2 by lia. rewrite Hlen. cbn [Nat.sub nth].
    subst lo hi. rewrite !byte_val_byte_of.
    - pose proof (Z.div_mod crc 256). lia.
    - split; [apply Z.div_pos; lia | apply Z.div_lt_upper_bound; lia].
    - apply Z.mod_pos_bound. lia. }
  pose proof (strip_header_ok (mkNamespace f dst ignore) H) as Hs.
  cbv zeta in Hs. cbn [hobeta_file output_file ignore_header] in Hs.
  do 2 eexists. split; [rewrite (parse_info_ok f H), Hcrc; reflexivity|].
  split; [exact Hsum|]. split; [exact Hs|].
  cbn [printed returned]. unfold strip_report.
  rewrite Hsum, Hcrc, Z.eqb_refl. reflexivity.
Qed.

Lemma sealed_header_verifies_witness :
  exists header out,
    parse_info sample_file = Ok (header, 4471, mkFile (content sample_file) 17) /\
    check_sum header = 4471 /\
    strip_header (mkNamespace sample_file sample_output false) = Ok out /\
    printed out
    = [("Created file out.bin, " ++ str (returned out) ++ " bytes copied.")%string].
Proof.
  exact (sealed_header_verifies (firstn 15 sample_header) sample_payload
           sample_output false eq_refl).
Defined.
